(** * GlLayer: lifecycle of the GL texture owned by a hardware layer

    A shallow embedding of [libs/hwui/GlLayer.cpp].  Every method of
    [GlLayer] is a computation in a state monad whose state holds the
    object itself ([this]) and the device it talks to: the [Caches]
    singleton with its texture binding tracker, and the GL driver.  The
    device keeps a chronological log of the calls it receives, so that
    "which calls does this method issue" is a statement about that log. *)

From Stdlib Require Import NArith List Bool Lia.
From ExtLib Require Import Structures.Monad Structures.MonadState.
From ExtLib Require Import Data.Monads.StateMonad.
Import ListNotations.
Import MonadNotation.
Local Open Scope monad_scope.
Local Open Scope N_scope.

(** ** Data *)

(** [GLuint], [GLenum] and [uint32_t] are unsigned 32-bit integers.  The
    code only stores, copies and tests them against zero, so no
    arithmetic and no wrap-around is involved. *)
Definition GLuint := N.
Definition GLenum := N.
Definition uint32_t := N.

(** The backend tag handed to the [Layer] base class.  The source names
    [Api::OpenGL] only; the other constructor stands for any other backend. *)
Inductive Api : Type :=
| OpenGL
| OtherApi.

(** The members of [Texture] that [GlLayer.cpp] reads or writes:
    [texture.mId], [texture.mWidth], [texture.mHeight] and the value
    returned by [texture.target()]. *)
Record Texture : Type := mkTexture {
  mId : GLuint;
  mWidth : uint32_t;
  mHeight : uint32_t;
  mTarget : GLenum
}.

Record GlLayer : Type := mkGlLayer {
  api : Api;
  texture : Texture
}.

(** Calls that reach the outside of the object: the GL driver
    ([glGenTextures], [glDeleteTextures]) and the texture binding tracker
    [caches.textureState()] ([bindTexture], [unbindTexture]). *)
Inductive Call : Type :=
| GenTextures (name : GLuint)
| DeleteTextures (name : GLuint)
| TrackerBind (target : GLenum) (id : GLuint)
| TrackerUnbind (id : GLuint).

(** The device: whether [Caches] is initialized, the names the driver hands
    out ([glNames k] is the name written by the [k]-th [glGenTextures]),
    and the log of the calls received so far, oldest first. *)
Record Device : Type := mkDevice {
  initialized : bool;
  glNames : nat -> GLuint;
  calls : list Call
}.

Record State : Type := mkState {
  this : GlLayer;
  device : Device
}.

Definition M : Type -> Type := state State.

(** ** Counting calls *)

Definition is_alloc (c : Call) : bool :=
  match c with GenTextures _ => true | _ => false end.

Definition is_destroy (c : Call) : bool :=
  match c with DeleteTextures _ => true | _ => false end.

Definition is_bind (c : Call) : bool :=
  match c with TrackerBind _ _ => true | _ => false end.

Definition is_unbind (c : Call) : bool :=
  match c with TrackerUnbind _ => true | _ => false end.

Definition is_driver (c : Call) : bool := is_alloc c || is_destroy c.

Definition is_tracker (c : Call) : bool := is_bind c || is_unbind c.

Definition count_calls (p : Call -> bool) (l : list Call) : nat :=
  length (filter p l).

(** The calls a computation adds to the log when run from [s]. *)
Definition issued {A : Type} (m : M A) (s : State) : list Call :=
  skipn (length (calls (device s))) (calls (device (execState m s))).

(** Texture names the object asked the driver for and that no
    [glDeleteTextures] of the log has destroyed yet. *)
Definition live_step (live : list GLuint) (c : Call) : list GLuint :=
  match c with
  | GenTextures n => n :: live
  | DeleteTextures n => filter (fun k => negb (k =? n)) live
  | _ => live
  end.

Definition liveTextures (log : list Call) : list GLuint :=
  fold_left live_step log [].

(** ** Primitive accesses *)

Definition set_texture_mId (v : GLuint) (l : GlLayer) : GlLayer :=
  mkGlLayer (api l)
    (mkTexture v (mWidth (texture l)) (mHeight (texture l)) (mTarget (texture l))).

Definition log_call (c : Call) (d : Device) : Device :=
  mkDevice (initialized d) (glNames d) (calls d ++ [c]).

(** [texture.mId] *)
Definition get_mId : M GLuint :=
  s <- get ;; ret (mId (texture (this s))).

(** [texture.mId = v] *)
Definition set_mId (v : GLuint) : M unit :=
  s <- get ;; put (mkState (set_texture_mId v (this s)) (device s)).

(** [texture.target()] *)
Definition Texture_target : M GLenum :=
  s <- get ;; ret (mTarget (texture (this s))).

Definition call (c : Call) : M unit :=
  s <- get ;; put (mkState (this s) (log_call c (device s))).

(** [caches.isInitialized()] *)
Definition Caches_isInitialized : M bool :=
  s <- get ;; ret (initialized (device s)).

(** [caches.textureState().bindTexture(target, id)] *)
Definition TextureState_bindTexture (target : GLenum) (id : GLuint) : M unit :=
  call (TrackerBind target id).

(** [caches.textureState().unbindTexture(id)] *)
Definition TextureState_unbindTexture (id : GLuint) : M unit :=
  call (TrackerUnbind id).

(** [glGenTextures(1, &texture.mId)]: the driver writes its next name into
    [texture.mId]. *)
Definition glGenTextures_mId : M unit :=
  s <- get ;;
  let name := glNames (device s) (count_calls is_alloc (calls (device s))) in
  call (GenTextures name) ;;
  set_mId name.

(** [glDeleteTextures(1, &id)] *)
Definition glDeleteTextures (id : GLuint) : M unit :=
  call (DeleteTextures id).

(** Modelled from the spec: [Texture::deleteTexture] is declared in
    [Texture.h] and defined in [Texture.cpp], neither of which is among the
    sources.  Its guarded caller is the destructor, of which the
    specification says: "if still Allocated at destruction time, perform
    the same driver destroy as release() (an explicit unbind on the
    tracker is NOT required at this point -- only the driver-level destroy
    call is necessary)".  As for release(), the handle is then reset to
    the sentinel [0], and on an unallocated resource the operation is a
    no-op ("every operation defines a no-op behavior for it"). *)
Definition Texture_deleteTexture : M unit :=
  id <- get_mId ;;
  if negb (id =? 0) then
    glDeleteTextures id ;;
    set_mId 0
  else ret tt.

(** Modelled from the spec: [Texture::deleteTexture] again, in the one
    situation in which [onGlContextLost] reaches it: the device context
    is already gone.  [Texture.cpp] is not among the sources; for this
    path the specification prescribes invalidate(), which "resets handle
    to 0 WITHOUT issuing a driver destroy call, because any such call
    would operate on a now-meaningless or dangling context and must not
    be attempted".  It is [Texture_deleteTexture] with the driver call
    left out. *)
Definition Texture_deleteTexture_contextLost : M unit :=
  id <- get_mId ;;
  if negb (id =? 0) then set_mId 0 else ret tt.

(** ** The methods of [GlLayer] *)

Section Construction.

(** The value [Texture]'s constructor gives to the target; the
    declaration is in [Texture.h]. *)
Variable defaultTarget : GLenum.

(** Modelled from the spec: the constructor [Texture(Caches&)] lives in
    [Texture.h], which is not among the sources.  A texture resource
    starts unallocated, "handle = 0", and its dimensions are written by
    the owning layer. *)
Definition Texture_ctor : Texture := mkTexture 0 0 0 defaultTarget.

(** [GlLayer::GlLayer(RenderState&, uint32_t layerWidth, uint32_t layerHeight)] *)
Definition GlLayer_ctor (layerWidth layerHeight : uint32_t) : GlLayer :=
  let texture := Texture_ctor in
  mkGlLayer OpenGL
    (mkTexture (mId texture) layerWidth layerHeight (mTarget texture)).

End Construction.

(** [GlLayer::~GlLayer()] *)
Definition GlLayer_dtor : M unit :=
  id <- get_mId ;;
  if negb (id =? 0) then Texture_deleteTexture else ret tt.

(** [void GlLayer::onGlContextLost()]: the call [texture.deleteTexture()]
    of a notification that arrives once the device context is gone. *)
Definition onGlContextLost : M unit :=
  Texture_deleteTexture_contextLost.

(** [void GlLayer::bindTexture() const] *)
Definition bindTexture : M unit :=
  id <- get_mId ;;
  if negb (id =? 0) then
    target <- Texture_target ;;
    id' <- get_mId ;;
    TextureState_bindTexture target id'
  else ret tt.

(** [void GlLayer::generateTexture()] *)
Definition generateTexture : M unit :=
  id <- get_mId ;;
  if id =? 0 then glGenTextures_mId else ret tt.

(** [void GlLayer::clearTexture()] *)
Definition clearTexture : M unit :=
  ok <- Caches_isInitialized ;;
  (if ok then
     id <- get_mId ;;
     TextureState_unbindTexture id
   else ret tt) ;;
  set_mId 0.

(** ** Histories of one layer *)

(** What can happen to a layer between its construction and its
    destruction: its four methods, and the [Caches] singleton being
    initialized or torn down by its owner. *)
Inductive Op : Type :=
| OpGenerateTexture
| OpBindTexture
| OpClearTexture
| OpGlContextLost
| OpCachesInit
| OpCachesTerminate.

Definition set_initialized (b : bool) : M unit :=
  s <- get ;;
  put (mkState (this s)
         (mkDevice b (glNames (device s)) (calls (device s)))).

Definition step (o : Op) : M unit :=
  match o with
  | OpGenerateTexture => generateTexture
  | OpBindTexture => bindTexture
  | OpClearTexture => clearTexture
  | OpGlContextLost => onGlContextLost
  | OpCachesInit => set_initialized true
  | OpCachesTerminate => set_initialized false
  end.

Fixpoint run (ops : list Op) (s : State) : State :=
  match ops with
  | [] => s
  | o :: ops' => run ops' (execState (step o) s)
  end.

(** A layer right after construction, on a device whose log is empty. *)
Definition constructed (defaultTarget : GLenum) (w h : uint32_t)
    (init : bool) (names : nat -> GLuint) : State :=
  mkState (GlLayer_ctor defaultTarget w h) (mkDevice init names []).


Definition handle (s : State) : GLuint := mId (texture (this s)).

Definition is_clear (o : Op) : bool :=
  match o with OpClearTexture => true | _ => false end.

(** The width, the height, the target and the backend tag of a layer are
    never written after construction. *)
Definition shape (s : State) : Api * uint32_t * uint32_t * GLenum :=
  (api (this s), mWidth (texture (this s)), mHeight (texture (this s)),
   mTarget (texture (this s))).

(** The driver never hands out the reserved name 0. *)
Definition names_nonzero (s : State) : Prop :=
  forall k, glNames (device s) k <> 0.



(** ** Histories made of the methods defined in this file

    [onGlContextLost] only forwards to [Texture::deleteTexture]; the
    histories below leave it out, so that every step is a method whose
    whole body is in [GlLayer.cpp]. *)

Definition is_context_loss (o : Op) : bool :=
  match o with OpGlContextLost => true | _ => false end.

Definition is_bind_op (o : Op) : bool :=
  match o with OpBindTexture => true | _ => false end.

Definition no_context_loss (ops : list Op) : bool :=
  forallb (fun o => negb (is_context_loss o)) ops.

Definition count_ops (p : Op -> bool) (ops : list Op) : nat :=
  length (filter p ops).

(** The allocate call an unallocated layer may still ask for. *)
Definition pending (s : State) : nat :=
  if handle s =? 0 then 1%nat else 0%nat.

(** The name the driver writes at its next [glGenTextures]. *)
Definition next_name (s : State) : GLuint :=
  glNames (device s) (count_calls is_alloc (calls (device s))).

(** The handle, when there is one, is a name the driver wrote. *)
Definition handle_generated (s : State) : Prop :=
  handle s = 0 \/ In (GenTextures (handle s)) (calls (device s)).

(** A call to the tracker that names a texture of this layer: a bind
    carries the target [tgt] and a non-zero generated name, an unbind
    carries 0 or a generated name. *)
Definition well_sourced (tgt : GLenum) (log : list Call) (c : Call) : Prop :=
  match c with
  | TrackerBind t id => t = tgt /\ id <> 0 /\ In (GenTextures id) log
  | TrackerUnbind id => id = 0 \/ In (GenTextures id) log
  | _ => True
  end.

Definition sourced (tgt : GLenum) (s : State) : Prop :=
  mTarget (texture (this s)) = tgt /\
  handle_generated s /\
  Forall (well_sourced tgt (calls (device s))) (calls (device s)).

(** How many [clearTexture] calls of a history find [Caches] initialized,
    when the history starts with [Caches] in the state [init]. *)
Fixpoint clears_while_initialized (ops : list Op) (init : bool) : nat :=
  match ops with
  | [] => 0%nat
  | OpClearTexture :: ops' =>
      ((if init then 1 else 0) + clears_while_initialized ops' init)%nat
  | OpCachesInit :: ops' => clears_while_initialized ops' true
  | OpCachesTerminate :: ops' => clears_while_initialized ops' false
  | _ :: ops' => clears_while_initialized ops' init
  end.

(** ** Test states *)

Definition names_from_1 (k : nat) : GLuint := N.of_nat (S k).

(** A driver that writes the reserved name 0, as when no texture can be
    generated. *)
Definition names_zero (k : nat) : GLuint := 0.

(** A 256x256 layer after its first [generateTexture], on a device whose
    driver hands out the names 1, 2, 3, ...: its handle is 1. *)
Definition allocated (init : bool) : State :=
  execState generateTexture (constructed 3553 256 256 init names_from_1).


(** Allocate, bind, reset, allocate again. *)
Definition recycle : list Op :=
  [OpGenerateTexture; OpBindTexture; OpClearTexture; OpGenerateTexture].

(** A reset that is queued, and runs after [Caches] has been torn down. *)
Definition deferred_reset : list Op :=
  [OpGenerateTexture; OpCachesTerminate; OpClearTexture; OpCachesInit; OpClearTexture].

Ltac handle_cases s :=
  let E := fresh "E" in
  destruct (N.eqb_spec (handle s) 0) as [E | E];
  [ try (exfalso; congruence) | try (exfalso; congruence) ].

Example generate_bind_run :
  let s := run [OpGenerateTexture; OpBindTexture] (constructed 3553 256 256 true names_from_1) in
  handle s = 1 /\ calls (device s) = [GenTextures 1; TrackerBind 3553 1].
Proof. vm_compute. split; reflexivity. Qed.

(** ** Equations of the methods

    Each method, run on a state, as a plain function of that state. *)

Lemma skipn_length_app {A : Type} (l k : list A) :
  skipn (length l) (l ++ k) = k.
Proof. induction l as [| x l IH]; simpl; [reflexivity | exact IH]. Qed.

Lemma count_calls_snoc (p : Call -> bool) (l : list Call) (c : Call) :
  count_calls p (l ++ [c]) = (count_calls p l + (if p c then 1 else 0))%nat.
Proof.
  unfold count_calls. rewrite filter_app, length_app. cbn.
  destruct (p c); reflexivity.
Qed.

Lemma count_calls_app (p : Call -> bool) (l k : list Call) :
  count_calls p (l ++ k) = (count_calls p l + count_calls p k)%nat.
Proof. unfold count_calls. rewrite filter_app, length_app. reflexivity. Qed.

Lemma issued_of_log {A : Type} (m : M A) (s : State) (l : list Call) :
  calls (device (execState m s)) = calls (device s) ++ l ->
  issued m s = l.
Proof. intros E. unfold issued. rewrite E. apply skipn_length_app. Qed.

Lemma issued_of_same_log {A : Type} (m : M A) (s : State) :
  calls (device (execState m s)) = calls (device s) ->
  issued m s = [].
Proof.
  intros E. apply issued_of_log. rewrite app_nil_r. exact E.
Qed.

Lemma execState_deleteTexture (s : State) :
  execState Texture_deleteTexture s =
  if handle s =? 0 then s
  else mkState (set_texture_mId 0 (this s))
         (log_call (DeleteTextures (handle s)) (device s)).
Proof.
  destruct s as [l d]. unfold Texture_deleteTexture, handle, execState. cbn.
  destruct (mId (texture l) =? 0); reflexivity.
Qed.

Lemma execState_dtor (s : State) :
  execState GlLayer_dtor s = execState Texture_deleteTexture s.
Proof.
  destruct s as [l d]. unfold GlLayer_dtor, Texture_deleteTexture, execState. cbn.
  destruct (mId (texture l) =? 0) eqn:E; cbn; rewrite ?E; reflexivity.
Qed.

Lemma execState_bindTexture (s : State) :
  execState bindTexture s =
  if handle s =? 0 then s
  else mkState (this s)
         (log_call (TrackerBind (mTarget (texture (this s))) (handle s)) (device s)).
Proof.
  destruct s as [l d]. unfold bindTexture, handle, execState. cbn.
  destruct (mId (texture l) =? 0); reflexivity.
Qed.

Lemma execState_generateTexture (s : State) :
  execState generateTexture s =
  if handle s =? 0 then
    let name := glNames (device s) (count_calls is_alloc (calls (device s))) in
    mkState (set_texture_mId name (this s)) (log_call (GenTextures name) (device s))
  else s.
Proof.
  destruct s as [l d]. unfold generateTexture, handle, execState. cbn.
  destruct (mId (texture l) =? 0); reflexivity.
Qed.

Lemma execState_clearTexture (s : State) :
  execState clearTexture s =
  mkState (set_texture_mId 0 (this s))
    (if initialized (device s)
     then log_call (TrackerUnbind (handle s)) (device s)
     else device s).
Proof.
  destruct s as [l d]. unfold clearTexture, handle, execState. cbn.
  destruct (initialized d); reflexivity.
Qed.

Lemma handle_set_texture_mId (v : GLuint) (l : GlLayer) (d : Device) :
  handle (mkState (set_texture_mId v l) d) = v.
Proof. reflexivity. Qed.

Lemma execState_onGlContextLost (s : State) :
  execState onGlContextLost s =
  if handle s =? 0 then s
  else mkState (set_texture_mId 0 (this s)) (device s).
Proof.
  destruct s as [l d].
  unfold onGlContextLost, Texture_deleteTexture_contextLost, handle, execState. cbn.
  destruct (mId (texture l) =? 0); reflexivity.
Qed.

(** Every method only appends to the log of the device. *)
Lemma log_grows (o : Op) (s : State) :
  exists l, calls (device (execState (step o) s)) = calls (device s) ++ l.
Proof.
  destruct o; cbn [step].
  - rewrite execState_generateTexture.
    destruct (handle s =? 0); cbn; eexists; [reflexivity | symmetry; apply app_nil_r].
  - rewrite execState_bindTexture.
    destruct (handle s =? 0); cbn; eexists; [symmetry; apply app_nil_r | reflexivity].
  - rewrite execState_clearTexture.
    destruct (initialized (device s)); cbn; eexists; [reflexivity | symmetry; apply app_nil_r].
  - rewrite execState_onGlContextLost. exists [].
    destruct (handle s =? 0); cbn; symmetry; apply app_nil_r.
  - exists []. destruct s. cbn. symmetry; apply app_nil_r.
  - exists []. destruct s. cbn. symmetry; apply app_nil_r.
Qed.

(** So [issued] is exactly what a step adds to the log. *)
Lemma issued_step (o : Op) (s : State) :
  calls (device (execState (step o) s)) = calls (device s) ++ issued (step o) s.
Proof.
  destruct (log_grows o s) as [l E]. rewrite (issued_of_log _ _ _ E). exact E.
Qed.

Lemma shape_step (o : Op) (s : State) :
  shape (execState (step o) s) = shape s.
Proof.
  destruct o; cbn [step].
  - rewrite execState_generateTexture. destruct (handle s =? 0); reflexivity.
  - rewrite execState_bindTexture. destruct (handle s =? 0); reflexivity.
  - rewrite execState_clearTexture. reflexivity.
  - rewrite execState_onGlContextLost.
    destruct (handle s =? 0); reflexivity.
  - destruct s; reflexivity.
  - destruct s; reflexivity.
Qed.

Lemma shape_run (ops : list Op) (s : State) :
  shape (run ops s) = shape s.
Proof.
  revert s. induction ops as [| o ops IH]; intros s; cbn [run].
  - reflexivity.
  - rewrite IH. apply shape_step.
Qed.

(** ** The context-loss path *)



(** C9: on a layer that was never allocated [onGlContextLost] changes
    nothing: the handle stays 0 and the device receives no call. *)
Theorem onGlContextLost_unallocated (s : State) :
  handle s = 0 ->
  execState onGlContextLost s = s /\
  handle (execState onGlContextLost s) = 0 /\
  issued onGlContextLost s = [].
Proof.
  intros H.
  assert (E : execState onGlContextLost s = s).
  { rewrite execState_onGlContextLost.
    handle_cases s. reflexivity. }
  split; [exact E | split].
  - rewrite E. exact H.
  - apply issued_of_same_log. rewrite E. reflexivity.
Qed.

Lemma onGlContextLost_unallocated_witness :
  handle (constructed 3553 256 256 true names_from_1) = 0 /\
  issued onGlContextLost (constructed 3553 256 256 true names_from_1) = [].
Proof.
  assert (A : handle (constructed 3553 256 256 true names_from_1) = 0) by reflexivity.
  split; [exact A |].
  exact (proj2 (proj2 (onGlContextLost_unallocated _ A))).
Defined.

(** ** The explicit reset path *)

(** C2, as stated, fails: with [Caches] initialized, [clearTexture] on the
    allocated layer with handle 1 unbinds it and forgets it, and never
    asks the driver to destroy it. *)
Lemma clearTexture_never_destroys :
  ~ (forall s : State,
        handle s <> 0 ->
        initialized (device s) = true ->
        handle (execState clearTexture s) = 0 /\
        count_calls is_unbind (issued clearTexture s) = 1%nat /\
        count_calls is_destroy (issued clearTexture s) = 1%nat).
Proof.
  intros H. specialize (H (allocated true)).
  assert (A : handle (allocated true) <> 0) by (vm_compute; discriminate).
  destruct (H A eq_refl) as (_ & _ & C). vm_compute in C. discriminate.
Qed.

(** C2, amended: with [Caches] initialized, [clearTexture] on an allocated
    layer leaves the handle at 0 and issues exactly one call, the tracker's
    unbind of that handle; no driver destroy call is issued. *)
Theorem clearTexture_initialized (s : State) :
  handle s <> 0 ->
  initialized (device s) = true ->
  handle (execState clearTexture s) = 0 /\
  issued clearTexture s = [TrackerUnbind (handle s)] /\
  count_calls is_unbind (issued clearTexture s) = 1%nat /\
  count_calls is_destroy (issued clearTexture s) = 0%nat.
Proof.
  intros _ I.
  assert (L : issued clearTexture s = [TrackerUnbind (handle s)]).
  { apply issued_of_log. rewrite execState_clearTexture, I. reflexivity. }
  split; [| split; [exact L | split]].
  - rewrite execState_clearTexture. reflexivity.
  - rewrite L. reflexivity.
  - rewrite L. reflexivity.
Qed.

Lemma clearTexture_initialized_witness :
  handle (allocated true) <> 0 /\
  initialized (device (allocated true)) = true /\
  issued clearTexture (allocated true) = [TrackerUnbind 1].
Proof.
  assert (A : handle (allocated true) <> 0) by (vm_compute; discriminate).
  split; [exact A | split; [reflexivity |]].
  exact (proj1 (proj2 (clearTexture_initialized (allocated true) A eq_refl))).
Defined.

(** C3: when [Caches] is not initialized, [clearTexture] still leaves the
    handle at 0, and neither the tracker nor the driver receives a call. *)
Theorem clearTexture_uninitialized (s : State) :
  initialized (device s) = false ->
  handle (execState clearTexture s) = 0 /\
  issued clearTexture s = [] /\
  device (execState clearTexture s) = device s.
Proof.
  intros I.
  assert (D : device (execState clearTexture s) = device s).
  { rewrite execState_clearTexture, I. reflexivity. }
  split; [| split; [| exact D]].
  - rewrite execState_clearTexture. reflexivity.
  - apply issued_of_same_log. rewrite D. reflexivity.
Qed.

Lemma clearTexture_uninitialized_witness :
  initialized (device (allocated false)) = false /\
  handle (execState clearTexture (allocated false)) = 0 /\
  issued clearTexture (allocated false) = [].
Proof.
  split; [reflexivity |].
  destruct (clearTexture_uninitialized (allocated false) eq_refl) as (A & B & _).
  exact (conj A B).
Defined.

(** ** Allocation *)

Lemma execState_seq {A B : Type} (m : M A) (k : M B) (s : State) :
  execState (m ;; k) s = execState k (execState m s).
Proof.
  unfold execState. cbn. destruct (runState m s). reflexivity.
Qed.

(** C4, as stated, fails: on a layer that is already allocated, two calls
    of [generateTexture] in a row issue no allocate call at all. *)
Lemma generateTexture_twice_on_allocated :
  ~ (forall s : State,
        count_calls is_alloc (issued (generateTexture ;; generateTexture) s) = 1%nat /\
        handle (execState generateTexture (execState generateTexture s)) =
        handle (execState generateTexture s)).
Proof.
  intros H. destruct (H (allocated true)) as [C _].
  vm_compute in C. discriminate.
Qed.

(** C4, amended: provided the driver hands out a non-zero name, the second
    of two calls of [generateTexture] in a row does nothing (no call, same
    handle), and the two calls together issue exactly one allocate call on
    an unallocated layer and none on an allocated one. *)
Theorem generateTexture_idempotent (s : State) :
  glNames (device s) (count_calls is_alloc (calls (device s))) <> 0 ->
  execState generateTexture (execState generateTexture s) =
    execState generateTexture s /\
  issued generateTexture (execState generateTexture s) = [] /\
  handle (execState (generateTexture ;; generateTexture) s) =
    handle (execState generateTexture s) /\
  count_calls is_alloc (issued (generateTexture ;; generateTexture) s) =
    (if handle s =? 0 then 1 else 0)%nat.
Proof.
  intros Hname.
  assert (A : handle (execState generateTexture s) <> 0).
  { rewrite execState_generateTexture. handle_cases s; [exact Hname | exact E]. }
  assert (I : execState generateTexture (execState generateTexture s) =
              execState generateTexture s).
  { rewrite (execState_generateTexture (execState generateTexture s)).
    destruct (N.eqb_spec (handle (execState generateTexture s)) 0); [congruence | reflexivity]. }
  split; [exact I | split; [| split]].
  - apply issued_of_same_log. rewrite I. reflexivity.
  - rewrite execState_seq, I. reflexivity.
  - unfold issued. rewrite execState_seq, I, execState_generateTexture.
    destruct (handle s =? 0); cbn.
    + rewrite skipn_length_app. reflexivity.
    + rewrite skipn_all. reflexivity.
Qed.

(** The proviso on the driver is needed: the guard of [generateTexture]
    tests the handle against 0, so a driver that writes the name 0 is asked
    again by the second call. *)
Example generateTexture_twice_zero_name :
  count_calls is_alloc
    (issued (generateTexture ;; generateTexture)
       (constructed 3553 256 256 true names_zero)) = 2%nat.
Proof. reflexivity. Qed.

Lemma generateTexture_idempotent_witness :
  let s := constructed 3553 256 256 true names_from_1 in
  glNames (device s) (count_calls is_alloc (calls (device s))) <> 0 /\
  count_calls is_alloc (issued (generateTexture ;; generateTexture) s) = 1%nat.
Proof.
  intros s.
  assert (A : glNames (device s) (count_calls is_alloc (calls (device s))) <> 0)
    by (vm_compute; discriminate).
  split; [exact A |].
  exact (proj2 (proj2 (proj2 (generateTexture_idempotent s A)))).
Defined.

(** ** Binding *)

(** C5: a layer leaves its constructor with handle 0, and [bindTexture] on
    a layer whose handle is 0 leaves the whole state as it was: no call to
    the driver, none to the tracker. *)
Theorem fresh_layer_bind_is_silent :
  forall (defaultTarget : GLenum) (layerWidth layerHeight : uint32_t),
    mId (texture (GlLayer_ctor defaultTarget layerWidth layerHeight)) = 0 /\
    forall s : State,
      handle s = 0 ->
      execState bindTexture s = s /\
      issued bindTexture s = [] /\
      count_calls is_driver (issued bindTexture s) = 0%nat /\
      count_calls is_tracker (issued bindTexture s) = 0%nat.
Proof.
  intros tgt w h. split; [reflexivity |].
  intros s H.
  assert (E : execState bindTexture s = s).
  { rewrite execState_bindTexture. handle_cases s. reflexivity. }
  assert (I : issued bindTexture s = []).
  { apply issued_of_same_log. rewrite E. reflexivity. }
  rewrite I. repeat split. exact E.
Qed.

Lemma fresh_layer_bind_is_silent_witness :
  let s := constructed 3553 256 256 true names_from_1 in
  handle s = 0 /\ execState bindTexture s = s /\ issued bindTexture s = [].
Proof.
  intros s.
  destruct (fresh_layer_bind_is_silent 3553 256 256) as [A B].
  destruct (B s A) as (E & I & _).
  exact (conj A (conj E I)).
Defined.

(** C10: [bindTexture] writes to no member of the layer: the handle, the
    width, the height, the target and the backend tag are what they were,
    whether the layer is allocated or not. *)
Theorem bindTexture_const (s : State) :
  this (execState bindTexture s) = this s /\
  handle (execState bindTexture s) = handle s /\
  mWidth (texture (this (execState bindTexture s))) = mWidth (texture (this s)) /\
  mHeight (texture (this (execState bindTexture s))) = mHeight (texture (this s)) /\
  mTarget (texture (this (execState bindTexture s))) = mTarget (texture (this s)) /\
  api (this (execState bindTexture s)) = api (this s).
Proof.
  assert (E : this (execState bindTexture s) = this s).
  { rewrite execState_bindTexture. destruct (handle s =? 0); reflexivity. }
  unfold handle. rewrite E. repeat split.
Qed.

(** ** Destruction *)

(** C6: the destructor of an allocated layer issues exactly one driver
    destroy call and no tracker unbind call; the destructor of an
    unallocated layer issues no call. *)
Theorem dtor_calls (s : State) :
  (handle s <> 0 ->
   issued GlLayer_dtor s = [DeleteTextures (handle s)] /\
   count_calls is_destroy (issued GlLayer_dtor s) = 1%nat /\
   count_calls is_unbind (issued GlLayer_dtor s) = 0%nat) /\
  (handle s = 0 ->
   issued GlLayer_dtor s = [] /\
   count_calls is_driver (issued GlLayer_dtor s) = 0%nat /\
   count_calls is_tracker (issued GlLayer_dtor s) = 0%nat).
Proof.
  split; intros H.
  - assert (I : issued GlLayer_dtor s = [DeleteTextures (handle s)]).
    { apply issued_of_log. rewrite execState_dtor, execState_deleteTexture.
      handle_cases s. reflexivity. }
    rewrite I. repeat split.
  - assert (I : issued GlLayer_dtor s = []).
    { apply issued_of_same_log. rewrite execState_dtor, execState_deleteTexture.
      handle_cases s. reflexivity. }
    rewrite I. repeat split.
Qed.

Lemma dtor_calls_witness :
  (handle (allocated true) <> 0 /\
   issued GlLayer_dtor (allocated true) = [DeleteTextures 1]) /\
  (handle (constructed 3553 256 256 true names_from_1) = 0 /\
   issued GlLayer_dtor (constructed 3553 256 256 true names_from_1) = []).
Proof.
  assert (A : handle (allocated true) <> 0) by (vm_compute; discriminate).
  assert (B : handle (constructed 3553 256 256 true names_from_1) = 0) by reflexivity.
  split.
  - split; [exact A |].
    exact (proj1 (proj1 (dtor_calls (allocated true)) A)).
  - split; [exact B |].
    exact (proj1 (proj2 (dtor_calls (constructed 3553 256 256 true names_from_1)) B)).
Defined.

(** ** Context loss against explicit reset *)

(** With handle 0, what [clearTexture] issues depends on [Caches] alone. *)
Lemma issued_clearTexture_unallocated (t : State) :
  handle t = 0 ->
  issued clearTexture t =
    (if initialized (device t) then [TrackerUnbind 0] else []).
Proof.
  intros A. destruct (initialized (device t)) eqn:Ht.
  - apply issued_of_log. rewrite execState_clearTexture, Ht, A. reflexivity.
  - apply issued_of_same_log. rewrite execState_clearTexture, Ht. reflexivity.
Qed.


(** C7, as stated, fails: after [onGlContextLost] has reset the handle of
    the layer with handle 1, [clearTexture] still calls the tracker, with
    [unbindTexture(0)]; its only guard is [caches.isInitialized()]. *)
Lemma clearTexture_after_context_loss_calls_tracker :
  ~ (forall s : State,
        issued clearTexture (execState onGlContextLost s) = [] /\
        issued onGlContextLost (execState clearTexture s) = []).
Proof.
  intros H. destruct (H (allocated true)) as [C _].
  vm_compute in C. discriminate.
Qed.

(** C7, amended: once either path has reset the handle to 0, the other one
    issues no driver call; [onGlContextLost] issues no call at all, and
    [clearTexture] issues the single tracker call [unbindTexture(0)] when
    [Caches] is initialized and no call otherwise. *)
Theorem reset_paths_never_destroy_twice (s : State) :
  handle (execState onGlContextLost s) = 0 /\
  handle (execState clearTexture s) = 0 /\
  issued onGlContextLost (execState clearTexture s) = [] /\
  issued clearTexture (execState onGlContextLost s) =
    (if initialized (device s) then [TrackerUnbind 0] else []) /\
  count_calls is_driver (issued clearTexture (execState onGlContextLost s)) = 0%nat.
Proof.
  assert (A : handle (execState onGlContextLost s) = 0).
  { rewrite execState_onGlContextLost.
    handle_cases s; [exact E | reflexivity]. }
  assert (B : handle (execState clearTexture s) = 0).
  { rewrite execState_clearTexture. reflexivity. }
  assert (D : initialized (device (execState onGlContextLost s)) = initialized (device s)).
  { rewrite execState_onGlContextLost.
    destruct (handle s =? 0); reflexivity. }
  assert (I : issued clearTexture (execState onGlContextLost s) =
              (if initialized (device s) then [TrackerUnbind 0] else [])).
  { rewrite <- D. apply issued_clearTexture_unallocated. exact A. }
  split; [exact A | split; [exact B | split; [| split; [exact I |]]]].
  - apply issued_of_same_log.
    rewrite execState_onGlContextLost, B. reflexivity.
  - rewrite I. destruct (initialized (device s)); reflexivity.
Qed.

(** ** The unallocated state along a history *)

Lemma liveTextures_snoc (log : list Call) (c : Call) :
  liveTextures (log ++ [c]) = live_step (liveTextures log) c.
Proof. unfold liveTextures. rewrite fold_left_app. reflexivity. Qed.

Lemma glNames_step (o : Op) (s : State) :
  glNames (device (execState (step o) s)) = glNames (device s).
Proof.
  destruct o; cbn [step].
  - rewrite execState_generateTexture. destruct (handle s =? 0); reflexivity.
  - rewrite execState_bindTexture. destruct (handle s =? 0); reflexivity.
  - rewrite execState_clearTexture. destruct (initialized (device s)); reflexivity.
  - rewrite execState_onGlContextLost.
    destruct (handle s =? 0); reflexivity.
  - destruct s; reflexivity.
  - destruct s; reflexivity.
Qed.







(** ** Further properties of the methods

    What follows is read off [generateTexture], [bindTexture],
    [clearTexture], the constructor and the guard of the destructor. *)

(** With handle 0 the destructor returns before it reaches the helper: the
    proof does not look inside [Texture_deleteTexture]. *)
Lemma execState_dtor_unallocated (s : State) :
  handle s = 0 -> execState GlLayer_dtor s = s.
Proof.
  intros H. destruct s as [l d]. unfold handle in H. cbn in H.
  unfold GlLayer_dtor, execState. cbn -[Texture_deleteTexture].
  rewrite H. reflexivity.
Qed.

Lemma handle_clearTexture (s : State) :
  handle (execState clearTexture s) = 0.
Proof. rewrite execState_clearTexture. reflexivity. Qed.

Lemma count_alloc_clearTexture (s : State) :
  count_calls is_alloc (calls (device (execState clearTexture s))) =
  count_calls is_alloc (calls (device s)).
Proof.
  rewrite execState_clearTexture.
  destruct (initialized (device s)); cbn -[count_calls].
  - rewrite count_calls_snoc. cbn. lia.
  - reflexivity.
Qed.

Lemma next_name_clearTexture (s : State) :
  next_name (execState clearTexture s) = next_name s.
Proof.
  unfold next_name. rewrite count_alloc_clearTexture.
  rewrite execState_clearTexture. destruct (initialized (device s)); reflexivity.
Qed.

Lemma execState_set_initialized (b : bool) (s : State) :
  execState (set_initialized b) s =
  mkState (this s) (mkDevice b (glNames (device s)) (calls (device s))).
Proof. destruct s; reflexivity. Qed.

(** *** How the methods compose *)

(** X1: on an unallocated layer, [generateTexture] followed by
    [bindTexture] issues exactly one allocate call and then one tracker
    bind, which carries the layer's own target and the name the driver has
    just written, provided that name is not 0. *)
Theorem generate_then_bind (s : State) :
  handle s = 0 ->
  next_name s <> 0 ->
  handle (execState (generateTexture ;; bindTexture) s) = next_name s /\
  issued (generateTexture ;; bindTexture) s =
    [GenTextures (next_name s);
     TrackerBind (mTarget (texture (this s))) (next_name s)].
Proof.
  intros H Hn.
  assert (G : execState generateTexture s =
              mkState (set_texture_mId (next_name s) (this s))
                (log_call (GenTextures (next_name s)) (device s))).
  { rewrite execState_generateTexture, H. reflexivity. }
  assert (B : execState (generateTexture ;; bindTexture) s =
              mkState (set_texture_mId (next_name s) (this s))
                (log_call (TrackerBind (mTarget (texture (this s))) (next_name s))
                   (log_call (GenTextures (next_name s)) (device s)))).
  { rewrite execState_seq, G, execState_bindTexture.
    rewrite handle_set_texture_mId.
    destruct (N.eqb_spec (next_name s) 0) as [Z | _]; [contradiction | reflexivity]. }
  split.
  - rewrite B. reflexivity.
  - apply issued_of_log. rewrite B. cbn. rewrite <- app_assoc. reflexivity.
Qed.

Lemma generate_then_bind_witness :
  let s := constructed 3553 256 256 false names_from_1 in
  handle s = 0 /\ next_name s <> 0 /\
  issued (generateTexture ;; bindTexture) s = [GenTextures 1; TrackerBind 3553 1].
Proof.
  intros s.
  assert (A : handle s = 0) by reflexivity.
  assert (B : next_name s <> 0) by (vm_compute; discriminate).
  exact (conj A (conj B (proj2 (generate_then_bind s A B)))).
Defined.

(** X2: [clearTexture] followed by [generateTexture] always asks the
    driver for a new name, whatever the handle was before: the layer ends
    with the driver's next name, the only calls are the tracker unbind of
    the old handle (when [Caches] is initialized) and the allocate call,
    and the old texture is not destroyed. *)
Theorem clear_then_generate (s : State) :
  handle (execState (clearTexture ;; generateTexture) s) = next_name s /\
  issued (clearTexture ;; generateTexture) s =
    (if initialized (device s) then [TrackerUnbind (handle s)] else [])
    ++ [GenTextures (next_name s)] /\
  count_calls is_destroy (issued (clearTexture ;; generateTexture) s) = 0%nat.
Proof.
  assert (G : execState (clearTexture ;; generateTexture) s =
              mkState (set_texture_mId (next_name s) (this s))
                (log_call (GenTextures (next_name s))
                   (device (execState clearTexture s)))).
  { rewrite execState_seq, execState_generateTexture, handle_clearTexture.
    cbn [N.eqb]. fold (next_name (execState clearTexture s)).
    rewrite next_name_clearTexture.
    rewrite (execState_clearTexture s) at 1. reflexivity. }
  assert (I : issued (clearTexture ;; generateTexture) s =
              (if initialized (device s) then [TrackerUnbind (handle s)] else [])
              ++ [GenTextures (next_name s)]).
  { apply issued_of_log. rewrite G, execState_clearTexture.
    destruct (initialized (device s)); cbn.
    - rewrite <- app_assoc. reflexivity.
    - reflexivity. }
  split; [rewrite G; reflexivity | split; [exact I |]].
  rewrite I. destruct (initialized (device s)); reflexivity.
Qed.

(** X3: once [clearTexture] has run, [bindTexture] and the destructor
    leave the state exactly as it is, whatever the layer was before; so a
    texture that [clearTexture] has forgotten is never destroyed by the
    layer, not even when the layer itself is destroyed. *)
Theorem cleared_layer_is_inert (s : State) :
  execState bindTexture (execState clearTexture s) = execState clearTexture s /\
  execState GlLayer_dtor (execState clearTexture s) = execState clearTexture s /\
  count_calls is_destroy (issued (clearTexture ;; GlLayer_dtor) s) = 0%nat.
Proof.
  assert (D : execState GlLayer_dtor (execState clearTexture s) =
              execState clearTexture s).
  { apply execState_dtor_unallocated, handle_clearTexture. }
  split; [| split; [exact D |]].
  - rewrite execState_bindTexture, handle_clearTexture. reflexivity.
  - unfold issued. rewrite execState_seq, D, execState_clearTexture.
    destruct (initialized (device s)); cbn -[skipn count_calls].
    + rewrite skipn_length_app. reflexivity.
    + rewrite skipn_all. reflexivity.
Qed.

(** X4: only [clearTexture] looks at [caches.isInitialized()]:
    [generateTexture] and [bindTexture] do the same thing, and issue the
    same calls, whether [Caches] is initialized or not. *)
Theorem liveness_only_guards_clear (b : bool) (s : State) :
  execState generateTexture (execState (set_initialized b) s) =
    execState (set_initialized b) (execState generateTexture s) /\
  execState bindTexture (execState (set_initialized b) s) =
    execState (set_initialized b) (execState bindTexture s) /\
  issued generateTexture (execState (set_initialized b) s) =
    issued generateTexture s /\
  issued bindTexture (execState (set_initialized b) s) = issued bindTexture s.
Proof.
  assert (H : handle (execState (set_initialized b) s) = handle s)
    by (rewrite execState_set_initialized; reflexivity).
  assert (G : execState generateTexture (execState (set_initialized b) s) =
              execState (set_initialized b) (execState generateTexture s)).
  { rewrite !execState_generateTexture, H. rewrite !execState_set_initialized.
    destruct (handle s =? 0); reflexivity. }
  assert (B : execState bindTexture (execState (set_initialized b) s) =
              execState (set_initialized b) (execState bindTexture s)).
  { rewrite !execState_bindTexture, H. rewrite !execState_set_initialized.
    destruct (handle s =? 0); reflexivity. }
  split; [exact G | split; [exact B | split]].
  - unfold issued. rewrite G. rewrite !execState_set_initialized. reflexivity.
  - unfold issued. rewrite B. rewrite !execState_set_initialized. reflexivity.
Qed.

(** *** Invariants of a history *)

Lemma no_context_loss_cons (o : Op) (ops : list Op) :
  no_context_loss (o :: ops) = true ->
  is_context_loss o = false /\ no_context_loss ops = true.
Proof.
  unfold no_context_loss. cbn [forallb]. intros H.
  apply andb_prop in H. destruct H as [A B].
  split; [apply negb_true_iff; exact A | exact B].
Qed.

Lemma count_ops_cons (p : Op -> bool) (o : Op) (ops : list Op) :
  count_ops p (o :: ops) = ((if p o then 1 else 0) + count_ops p ops)%nat.
Proof. unfold count_ops. cbn [filter]. destruct (p o); reflexivity. Qed.

(** One step other than a context loss: no destroy call, at most one
    unbind and only from [clearTexture], at most one bind and only from
    [bindTexture]. *)
Lemma step_ledger (o : Op) (s : State) :
  is_context_loss o = false ->
  count_calls is_destroy (calls (device (execState (step o) s))) =
    count_calls is_destroy (calls (device s)) /\
  (count_calls is_unbind (calls (device (execState (step o) s))) <=
    count_calls is_unbind (calls (device s)) + (if is_clear o then 1 else 0))%nat /\
  (count_calls is_bind (calls (device (execState (step o) s))) <=
    count_calls is_bind (calls (device s)) + (if is_bind_op o then 1 else 0))%nat.
Proof.
  intros Ho. destruct o; try discriminate Ho; cbn [step is_clear is_bind_op].
  - rewrite execState_generateTexture.
    destruct (handle s =? 0); cbn -[count_calls];
      rewrite ?count_calls_snoc; cbn; lia.
  - rewrite execState_bindTexture.
    destruct (handle s =? 0); cbn -[count_calls];
      rewrite ?count_calls_snoc; cbn; lia.
  - rewrite execState_clearTexture.
    destruct (initialized (device s)); cbn -[count_calls];
      rewrite ?count_calls_snoc; cbn; lia.
  - rewrite execState_set_initialized. cbn -[count_calls]. lia.
  - rewrite execState_set_initialized. cbn -[count_calls]. lia.
Qed.

(** X5: a history of [generateTexture], [bindTexture] and [clearTexture]
    calls (with [Caches] coming and going) never issues a driver destroy
    call, issues at most one tracker unbind per [clearTexture] and at most
    one tracker bind per [bindTexture]. *)
Theorem history_ledger (ops : list Op) (s : State) :
  no_context_loss ops = true ->
  count_calls is_destroy (calls (device (run ops s))) =
    count_calls is_destroy (calls (device s)) /\
  (count_calls is_unbind (calls (device (run ops s))) <=
    count_calls is_unbind (calls (device s)) + count_ops is_clear ops)%nat /\
  (count_calls is_bind (calls (device (run ops s))) <=
    count_calls is_bind (calls (device s)) + count_ops is_bind_op ops)%nat.
Proof.
  revert s. induction ops as [| o ops IH]; intros s H; cbn [run].
  - unfold count_ops. cbn. lia.
  - apply no_context_loss_cons in H. destruct H as [Ho Hr].
    destruct (IH (execState (step o) s) Hr) as (D & U & B).
    destruct (step_ledger o s Ho) as (D' & U' & B').
    rewrite !count_ops_cons. lia.
Qed.

Lemma history_ledger_witness :
  no_context_loss recycle = true /\
  count_calls is_destroy
    (calls (device (run recycle (constructed 3553 256 256 true names_from_1)))) = 0%nat.
Proof.
  split; [reflexivity |].
  exact (proj1 (history_ledger recycle
                  (constructed 3553 256 256 true names_from_1) eq_refl)).
Defined.

(** One step other than a context loss spends the pending allocation or,
    for [clearTexture], restores it. *)
Lemma step_pending (o : Op) (s : State) :
  names_nonzero s ->
  is_context_loss o = false ->
  (count_calls is_alloc (calls (device (execState (step o) s)))
     + pending (execState (step o) s) <=
   count_calls is_alloc (calls (device s)) + pending s
     + (if is_clear o then 1 else 0))%nat.
Proof.
  intros Hn Ho. unfold pending.
  destruct o; try discriminate Ho; cbn [step is_clear].
  - rewrite execState_generateTexture.
    destruct (handle s =? 0) eqn:E; [| rewrite E; lia].
    rewrite handle_set_texture_mId. cbn -[count_calls].
    rewrite count_calls_snoc. cbn [is_alloc].
    destruct (N.eqb_spec (glNames (device s) (count_calls is_alloc (calls (device s)))) 0)
      as [Z | _]; [apply Hn in Z; contradiction | lia].
  - rewrite execState_bindTexture.
    destruct (handle s =? 0) eqn:E; [rewrite E; lia |].
    change (handle (mkState (this s)
              (log_call (TrackerBind (mTarget (texture (this s))) (handle s)) (device s))))
      with (handle s).
    rewrite E. cbn -[count_calls]. rewrite count_calls_snoc. cbn. lia.
  - rewrite handle_clearTexture, count_alloc_clearTexture. cbn [N.eqb].
    destruct (handle s =? 0); lia.
  - rewrite execState_set_initialized. cbn -[count_calls].
    change (handle (mkState (this s)
              (mkDevice true (glNames (device s)) (calls (device s)))))
      with (handle s).
    lia.
  - rewrite execState_set_initialized. cbn -[count_calls].
    change (handle (mkState (this s)
              (mkDevice false (glNames (device s)) (calls (device s)))))
      with (handle s).
    lia.
Qed.

(** X6: when the driver hands out non-zero names, a layer asks for at most
    one texture between two [clearTexture] calls: along a history the
    number of allocate calls is at most the number of [clearTexture] calls
    plus one (plus none if the layer starts allocated). *)
Theorem allocations_bounded_by_clears (ops : list Op) (s : State) :
  names_nonzero s ->
  no_context_loss ops = true ->
  (count_calls is_alloc (calls (device (run ops s))) <=
   count_calls is_alloc (calls (device s)) + pending s + count_ops is_clear ops)%nat.
Proof.
  revert s. induction ops as [| o ops IH]; intros s Hn H; cbn [run].
  - lia.
  - apply no_context_loss_cons in H. destruct H as [Ho Hr].
    assert (Hn' : names_nonzero (execState (step o) s)).
    { intros k. rewrite glNames_step. apply Hn. }
    specialize (IH (execState (step o) s) Hn' Hr).
    pose proof (step_pending o s Hn Ho) as P.
    rewrite count_ops_cons. lia.
Qed.

Lemma allocations_bounded_by_clears_witness :
  let s := constructed 3553 256 256 true names_from_1 in
  names_nonzero s /\ no_context_loss recycle = true /\
  (count_calls is_alloc (calls (device (run recycle s))) <= 0 + 1 + 1)%nat.
Proof.
  intros s.
  assert (A : names_nonzero s) by (intros k; cbn; unfold names_from_1; lia).
  exact (conj A (conj eq_refl (allocations_bounded_by_clears recycle s A eq_refl))).
Defined.

Lemma well_sourced_mono (tgt : GLenum) (l k : list Call) (c : Call) :
  well_sourced tgt l c -> well_sourced tgt (l ++ k) c.
Proof.
  destruct c as [n | n | t id | id]; cbn; try exact (fun H => H).
  - intros (A & B & C). repeat split; try assumption.
    apply in_or_app. left. exact C.
  - intros [A | A]; [left; exact A | right; apply in_or_app; left; exact A].
Qed.

Lemma sourced_log_call (tgt : GLenum) (l : list Call) (c : Call) :
  Forall (well_sourced tgt l) l ->
  well_sourced tgt (l ++ [c]) c ->
  Forall (well_sourced tgt (l ++ [c])) (l ++ [c]).
Proof.
  intros F W. apply Forall_app. split.
  - apply Forall_impl with (P := well_sourced tgt l); [| exact F].
    intros a. apply well_sourced_mono.
  - constructor; [exact W | constructor].
Qed.

Lemma sourced_step (tgt : GLenum) (o : Op) (s : State) :
  is_context_loss o = false ->
  sourced tgt s ->
  sourced tgt (execState (step o) s).
Proof.
  intros Ho (T & G & F). unfold sourced, handle_generated in *.
  destruct o; try discriminate Ho; cbn [step].
  - rewrite execState_generateTexture.
    destruct (handle s =? 0); [| repeat split; assumption].
    cbn -[In]. split; [exact T | split].
    + right. apply in_or_app. right. left. reflexivity.
    + apply sourced_log_call; [exact F | exact I].
  - rewrite execState_bindTexture.
    destruct (N.eqb_spec (handle s) 0) as [E | E]; [repeat split; assumption |].
    destruct G as [G | G]; [contradiction |].
    cbn -[In]. split; [exact T | split].
    + right. apply in_or_app. left. exact G.
    + apply sourced_log_call; [exact F |].
      cbn -[In]. repeat split; [exact T | exact E |].
      apply in_or_app. left. exact G.
  - rewrite execState_clearTexture.
    destruct (initialized (device s)); cbn -[In]; split; try exact T; split.
    + left. reflexivity.
    + apply sourced_log_call; [exact F |].
      cbn -[In]. destruct G as [G | G]; [left; exact G |].
      right. apply in_or_app. left. exact G.
    + left. reflexivity.
    + exact F.
  - rewrite execState_set_initialized. repeat split; assumption.
  - rewrite execState_set_initialized. repeat split; assumption.
Qed.

Lemma sourced_run (tgt : GLenum) (ops : list Op) (s : State) :
  no_context_loss ops = true ->
  sourced tgt s ->
  sourced tgt (run ops s).
Proof.
  revert s. induction ops as [| o ops IH]; intros s H I; cbn [run].
  - exact I.
  - apply no_context_loss_cons in H. destruct H as [Ho Hr].
    apply IH; [exact Hr | apply sourced_step; assumption].
Qed.

(** X7: starting from an unallocated layer and an empty log, whatever
    sequence of [generateTexture], [bindTexture] and [clearTexture] follows,
    the tracker is only ever given textures of this layer: every bind
    carries the layer's target and a non-zero name that a [glGenTextures]
    of the log wrote, every unbind carries such a name or 0, and the
    current handle is 0 or such a name. *)
Theorem tracker_sees_only_generated_names (ops : list Op) (s : State) :
  handle s = 0 ->
  calls (device s) = [] ->
  no_context_loss ops = true ->
  handle_generated (run ops s) /\
  Forall (well_sourced (mTarget (texture (this s))) (calls (device (run ops s))))
    (calls (device (run ops s))).
Proof.
  intros H L N.
  assert (I : sourced (mTarget (texture (this s))) s).
  { split; [reflexivity | split; [left; exact H |]]. rewrite L. constructor. }
  destruct (sourced_run _ ops s N I) as (_ & G & F).
  split; assumption.
Qed.

Lemma tracker_sees_only_generated_names_witness :
  let s := constructed 3553 256 256 true names_from_1 in
  handle s = 0 /\ calls (device s) = [] /\ no_context_loss recycle = true /\
  handle_generated (run recycle s).
Proof.
  intros s.
  exact (conj eq_refl (conj eq_refl (conj eq_refl
    (proj1 (tracker_sees_only_generated_names recycle s eq_refl eq_refl eq_refl))))).
Defined.

(** X8: the width and the height given to the constructor, and the
    backend tag [Api::OpenGL] it sets, are still those of the layer after
    any sequence of [generateTexture], [bindTexture] and [clearTexture]. *)
Theorem dimensions_fixed_at_construction
    (tgt : GLenum) (w h : uint32_t) (init : bool) (names : nat -> GLuint)
    (ops : list Op) :
  no_context_loss ops = true ->
  mWidth (texture (this (run ops (constructed tgt w h init names)))) = w /\
  mHeight (texture (this (run ops (constructed tgt w h init names)))) = h /\
  api (this (run ops (constructed tgt w h init names))) = OpenGL.
Proof.
  intros H.
  assert (S : forall s, no_context_loss ops = true -> shape (run ops s) = shape s).
  { clear H. induction ops as [| o ops IH]; intros s H; cbn [run].
    - reflexivity.
    - apply no_context_loss_cons in H. destruct H as [_ Hr].
      rewrite (IH _ Hr). apply shape_step. }
  specialize (S (constructed tgt w h init names) H).
  unfold shape in S. injection S as A W Hh _.
  split; [exact W | split; [exact Hh | exact A]].
Qed.

Lemma dimensions_fixed_at_construction_witness :
  no_context_loss recycle = true /\
  mWidth (texture (this (run recycle (constructed 3553 256 128 true names_from_1)))) = 256.
Proof.
  split; [reflexivity |].
  exact (proj1 (dimensions_fixed_at_construction 3553 256 128 true names_from_1
                  recycle eq_refl)).
Defined.

Lemma step_unbinds (o : Op) (s : State) :
  is_context_loss o = false ->
  count_calls is_unbind (calls (device (execState (step o) s))) =
    (count_calls is_unbind (calls (device s))
     + (if is_clear o && initialized (device s) then 1 else 0))%nat /\
  initialized (device (execState (step o) s)) =
    match o with
    | OpCachesInit => true
    | OpCachesTerminate => false
    | _ => initialized (device s)
    end.
Proof.
  intros Ho. destruct o; try discriminate Ho; cbn [step is_clear andb].
  - rewrite execState_generateTexture.
    destruct (handle s =? 0); cbn -[count_calls];
      rewrite ?count_calls_snoc; cbn; split; (lia || reflexivity).
  - rewrite execState_bindTexture.
    destruct (handle s =? 0); cbn -[count_calls];
      rewrite ?count_calls_snoc; cbn; split; (lia || reflexivity).
  - rewrite execState_clearTexture.
    destruct (initialized (device s)) eqn:E; cbn -[count_calls];
      rewrite ?count_calls_snoc; cbn; split; (lia || congruence).
  - rewrite execState_set_initialized. cbn -[count_calls]. split; [lia | reflexivity].
  - rewrite execState_set_initialized. cbn -[count_calls]. split; [lia | reflexivity].
Qed.

(** X9: along a history, the tracker receives exactly one unbind for each
    [clearTexture] that runs while [Caches] is initialized, and none for a
    [clearTexture] that runs after [Caches] was torn down. *)
Theorem unbinds_follow_liveness (ops : list Op) (s : State) :
  no_context_loss ops = true ->
  count_calls is_unbind (calls (device (run ops s))) =
    (count_calls is_unbind (calls (device s))
     + clears_while_initialized ops (initialized (device s)))%nat.
Proof.
  revert s. induction ops as [| o ops IH]; intros s H; cbn [run].
  - cbn. lia.
  - apply no_context_loss_cons in H. destruct H as [Ho Hr].
    rewrite (IH _ Hr).
    destruct (step_unbinds o s Ho) as [U I]. rewrite U, I.
    destruct o; try discriminate Ho; cbn [is_clear andb clears_while_initialized];
      lia.
Qed.

Lemma unbinds_follow_liveness_witness :
  no_context_loss deferred_reset = true /\
  count_calls is_unbind
    (calls (device (run deferred_reset
                      (constructed 3553 256 256 true names_from_1)))) = 1%nat.
Proof.
  split; [reflexivity |].
  exact (unbinds_follow_liveness deferred_reset
           (constructed 3553 256 256 true names_from_1) eq_refl).
Defined.
